(** * The volume_action module of the OpenStack Ansible collection

    A shallow embedding of [plugins/modules/volume_action.py]: the class
    [VolumeActionModule] with its declarative tables ([argument_spec],
    [module_kwargs]) and its three methods ([run], [_preliminary_checks],
    [_execute_volume_action]).

    The module talks to a cloud client ([self.conn]) and ends the process
    through the framework's [exit_json] / [fail_json].  Both are effects:
    the cloud is modelled as an abstract collaborator with its own state,
    every call to it is logged, and the methods live in a state monad
    whose computations may stop early (exit, failure, Python exception). *)

From stdpp Require Import gmap strings list.

(** ** Python values and dictionaries *)

(** The values that occur as module parameters: [None], booleans and
    strings.  [self.params] and keyword arguments are dictionaries with
    string keys. *)
Inductive PyVal : Type :=
| VNone
| VBool (b : bool)
| VStr (s : string).

#[global] Instance PyVal_eq_dec : EqDecision PyVal.
Proof. solve_decision. Defined.

Abbreviation PyDict := (gmap string PyVal).

(** [a == b] on those values. *)
Definition py_eq (a b : PyVal) : bool := bool_decide (a = b).

(** ['%s' % v], the [str()] of a value. *)
Definition py_str (v : PyVal) : string :=
  match v with
  | VNone => "None"
  | VBool true => "True"
  | VBool false => "False"
  | VStr s => s
  end.

(** Python exceptions that can cross the module: a missing dictionary
    key, and the SDK's exception class raised by the cloud client. *)
Inductive Exn : Type :=
| KeyError (key : string)
| SDKException (msg : string).

(** ** Outcomes

    A method either returns a value, or the process ends in the
    framework's [exit_json] or [fail_json] with keyword arguments [kw], or
    an exception propagates. *)
Inductive Outcome (A : Type) : Type :=
| Ret (a : A)
| ExitJson (kw : PyDict)
| FailJson (kw : PyDict)
| Raise (e : Exn).

Arguments Ret {A} a.
Arguments ExitJson {A} kw.
Arguments FailJson {A} kw.
Arguments Raise {A} e.

(** What a call to the cloud client gives back. *)
Inductive CallResult (A : Type) : Type :=
| Returned (a : A)
| Raised (e : Exn).

Arguments Returned {A} a.
Arguments Raised {A} e.

(** ** The module-level tables

    [_action_map] and [_admin_actions] precede the class; they are dict
    and list literals, kept here in source order. *)
Definition _action_map : list (string * list string) :=
  [ ("stop", ["SHUTOFF"]);
    ("start", ["ACTIVE"]);
    ("pause", ["PAUSED"]);
    ("unpause", ["ACTIVE"]);
    ("lock", ["ACTIVE"]);
    ("unlock", ["ACTIVE"]);
    ("suspend", ["SUSPENDED"]);
    ("reboot_soft", ["ACTIVE"]);
    ("reboot_hard", ["ACTIVE"]);
    ("resume", ["ACTIVE"]);
    ("rebuild", ["ACTIVE"]);
    ("shelve", ["SHELVED_OFFLOADED"; "SHELVED"]);
    ("shelve_offload", ["SHELVED_OFFLOADED"]);
    ("unshelve", ["ACTIVE"]);
    ("change_server_password", ["ACTIVE"]) ].

Definition _admin_actions : list string :=
  ["pause"; "unpause"; "suspend"; "resume"; "lock"; "unlock";
   "shelve_offload"].

(** The dictionary that the literal [_action_map] builds: entries are
    stored left to right, a later one replacing an earlier one with the
    same key. *)
Definition dict_of {A} (literal : list (string * A)) : gmap string A :=
  fold_left (fun d kv => <[kv.1 := kv.2]> d) literal ∅.

(** ** The declarative tables of [VolumeActionModule] *)

Inductive ArgType : Type := TStr | TBool.

(** One entry of [argument_spec].  [default = None] stands for an entry
    without a [default=] key. *)
Record ArgSpec : Type := mkArg {
  required : bool;
  type : ArgType;
  choices : option (list PyVal);
  default : option PyVal
}.

Definition argument_spec : list (string * ArgSpec) :=
  [ ("volume", mkArg true TStr None None);
    ("action", mkArg true TStr
       (Some [VStr "extend"; VStr "reset_status"; VStr "revert"]) None);
    ("snapshot_id", mkArg false TStr None None);
    ("status", mkArg false TStr None None);
    ("new_size", mkArg false TBool None (Some (VBool false)));
    ("all_projects", mkArg false TBool None (Some (VBool false))) ].

(** [module_kwargs['required_if']]: (key, value, required options). *)
Definition required_if : list (string * PyVal * list string) :=
  [ ("action", VStr "extend", ["new_size"]);
    ("action", VStr "reset_status", ["status"]);
    ("action", VStr "revert", ["snapshot_id"]) ].

(** [module_kwargs['supports_check_mode']]. *)
Definition supports_check_mode : bool := true.

(** The module object, as far as the methods read it: [self.params] and
    [self.ansible.check_mode]. *)
Record Module : Type := mkModule {
  params : PyDict;
  check_mode : bool
}.

(** ** The framework's side: building [self.params] *)

(** Modelled from the spec: the host framework's parameter handling
    ([AnsibleModule], which [OpenStackModule.__init__] instantiates with
    the two tables above) is not part of the module's file.  The spec's
    contract has it validate, before [run] is entered, that required
    options are present, that [action] is one of its choices and that the
    option named by the action's row of the required-if table is present;
    the option table gives the defaults.  The steps below follow the
    framework's order: options with a default that are absent from the task
    receive it first, the checks follow, and the options still absent are
    set to [None] last.  Conversion of scalars between types and the
    options of the shared OpenStack argument spec (authentication, timeouts)
    are left out: task arguments are taken as typed values, and keys the
    table does not name pass through. *)
Module Framework.

Inductive ConfigurationError : Type :=
| MissingRequired (names : list string)
| WrongType (name : string) (expected : ArgType)
| NotAChoice (name : string) (value : PyVal)
| RequiredIf (key : string) (value : PyVal) (missing : list string).

Inductive Init : Type :=
| Ready (self : Module)
| Skipped
| Invalid (e : ConfigurationError).

Definition absent (p : PyDict) (k : string) : bool :=
  bool_decide (p !! k = None).

(** First pass over the defaults: only defaults other than [None]. *)
Fixpoint set_defaults (spec : list (string * ArgSpec)) (p : PyDict) : PyDict :=
  match spec with
  | [] => p
  | (k, a) :: rest =>
      set_defaults rest
        (match default a with
         | Some d => if absent p k then <[k := d]> p else p
         | None => p
         end)
  end.

(** Last pass: whatever is still absent becomes [None]. *)
Fixpoint set_none (spec : list (string * ArgSpec)) (p : PyDict) : PyDict :=
  match spec with
  | [] => p
  | (k, _) :: rest =>
      set_none rest (if absent p k then <[k := VNone]> p else p)
  end.

Definition missing_required (spec : list (string * ArgSpec)) (p : PyDict)
  : list string :=
  (List.filter (fun ka => required (snd ka) && absent p (fst ka)) spec).*1.

Definition has_type (t : ArgType) (v : PyVal) : bool :=
  match t, v with
  | _, VNone => true
  | TStr, VStr _ => true
  | TBool, VBool _ => true
  | _, _ => false
  end.

Fixpoint check_types (spec : list (string * ArgSpec)) (p : PyDict)
  : option ConfigurationError :=
  match spec with
  | [] => None
  | (k, a) :: rest =>
      match p !! k with
      | Some v =>
          if has_type (type a) v then check_types rest p
          else Some (WrongType k (type a))
      | None => check_types rest p
      end
  end.

Fixpoint check_choices (spec : list (string * ArgSpec)) (p : PyDict)
  : option ConfigurationError :=
  match spec with
  | [] => None
  | (k, a) :: rest =>
      match choices a, p !! k with
      | Some cs, Some v =>
          if py_eq v VNone || bool_decide (v ∈ cs) then check_choices rest p
          else Some (NotAChoice k v)
      | _, _ => check_choices rest p
      end
  end.

(** A row [(key, value, options)] applies when [p[key] == value]; then
    all of [options] must be there. *)
Fixpoint check_required_if (rows : list (string * PyVal * list string))
    (p : PyDict) : option ConfigurationError :=
  match rows with
  | [] => None
  | (key, value, options) :: rest =>
      let missing :=
        if bool_decide (p !! key = Some value)
        then List.filter (absent p) options else [] in
      match missing with
      | [] => check_required_if rest p
      | _ => Some (RequiredIf key value missing)
      end
  end.

Definition validate (spec : list (string * ArgSpec))
    (rows : list (string * PyVal * list string)) (task_args : PyDict)
  : ConfigurationError + PyDict :=
  let p := set_defaults spec task_args in
  match missing_required spec p with
  | _ :: _ as names => inl (MissingRequired names)
  | [] =>
      match check_types spec p with
      | Some e => inl e
      | None =>
          match check_choices spec p with
          | Some e => inl e
          | None =>
              match check_required_if rows p with
              | Some e => inl e
              | None => inr (set_none spec p)
              end
          end
      end
  end.

Definition AnsibleModule (spec : list (string * ArgSpec))
    (rows : list (string * PyVal * list string)) (supports_check : bool)
    (task_args : PyDict) (check : bool) : Init :=
  match validate spec rows task_args with
  | inl e => Invalid e
  | inr p =>
      if check && negb supports_check then Skipped
      else Ready (mkModule p check)
  end.

Definition join (names : list string) : string :=
  foldr (fun n acc => if bool_decide (acc = "") then n else n +:+ ", " +:+ acc)
        "" names.

Definition describe (e : ConfigurationError) : string :=
  match e with
  | MissingRequired names => "missing required arguments: " +:+ join names
  | WrongType name TStr => "argument " +:+ name +:+ " is not of type str"
  | WrongType name TBool => "argument " +:+ name +:+ " is not of type bool"
  | NotAChoice name v =>
      "value of " +:+ name +:+ " is not one of its choices, got: " +:+ py_str v
  | RequiredIf key value missing =>
      key +:+ " is " +:+ py_str value
          +:+ " but all of the following are missing: " +:+ join missing
  end.

End Framework.

(** ** The cloud client and the methods *)

Section Executor.

(** Volume resources and the state of the cloud platform are the
    collaborator's business. *)
Context {Volume St : Type}.

(** [self.conn]: lookup by name or id (positional argument and keyword
    arguments), and the three block-storage operations.  Each call sees
    the platform's state and may change it; each returns or raises.  The
    lookup returns the volume resource, which is truthy, or [None]. *)
Record CloudClient : Type := mkClient {
  get_volume : PyVal -> PyDict -> St -> CallResult (option Volume) * St;
  extend_volume : Volume -> PyVal -> St -> CallResult PyVal * St;
  reset_volume_status : Volume -> PyVal -> St -> CallResult PyVal * St;
  revert_volume_to_snapshot : Volume -> PyVal -> St -> CallResult PyVal * St
}.

(** The calls the module issues, with their arguments. *)
Inductive Event : Type :=
| CallGetVolume (name_or_id : PyVal) (kwargs : PyDict)
| CallExtendVolume (volume : Volume) (new_size : PyVal)
| CallResetVolumeStatus (volume : Volume) (status : PyVal)
| CallRevertVolumeToSnapshot (volume : Volume) (snapshot_id : PyVal).

(** The lookup reads; the three operations change the platform. *)
Definition is_mutating (e : Event) : bool :=
  match e with
  | CallGetVolume _ _ => false
  | _ => true
  end.

Definition mutating_calls (tr : list Event) : list Event :=
  List.filter is_mutating tr.

(** The world one invocation runs in: the platform's state and the log
    of the calls issued so far. *)
Record World : Type := mkWorld {
  cloud : St;
  calls : list Event
}.

Definition M (A : Type) : Type := World -> Outcome A * World.

Definition ret {A} (a : A) : M A := fun w => (Ret a, w).

Definition bind {A B} (m : M A) (k : A -> M B) : M B :=
  fun w =>
    match m w with
    | (Ret a, w') => k a w'
    | (ExitJson kw, w') => (ExitJson kw, w')
    | (FailJson kw, w') => (FailJson kw, w')
    | (Raise e, w') => (Raise e, w')
    end.

Definition raise {A} (e : Exn) : M A := fun w => (Raise e, w).
Definition exit_json {A} (kw : PyDict) : M A := fun w => (ExitJson kw, w).
Definition fail_json {A} (kw : PyDict) : M A := fun w => (FailJson kw, w).

(** [try: m except SDKException as e: h e] *)
Definition try_except {A} (m : M A) (h : string -> M A) : M A :=
  fun w =>
    match m w with
    | (Raise (SDKException msg), w') => h msg w'
    | r => r
    end.

Notation "'let*' x ':=' m 'in' k" := (bind m (fun x => k))
  (at level 10, x name, m at level 100, k at level 200).

(** [d[k]] *)
Definition getitem (d : PyDict) (k : string) : M PyVal :=
  match d !! k with
  | Some v => ret v
  | None => raise (KeyError k)
  end.

(** A call to the client: log it, run it on the platform's state. *)
Definition call {A} (e : Event) (f : St -> CallResult A * St) : M A :=
  fun w =>
    let (r, st) := f (cloud w) in
    let w' := mkWorld st (calls w ++ [e]) in
    match r with
    | Returned a => (Ret a, w')
    | Raised x => (Raise x, w')
    end.

Variable conn : CloudClient.
Variable self : Module.

(** [_preliminary_checks(self)] *)
Definition _preliminary_checks : M Volume :=
  let* name := getitem (params self) "volume" in
  let* volume := call (CallGetVolume name ∅) (get_volume conn name ∅) in
  match volume with
  | None =>
      let* name := getitem (params self) "volume" in
      fail_json {[ "msg" := VStr ("Could not find volume " +:+ py_str name) ]}
  | Some v => ret v
  end.

(** [_execute_volume_action(self, volume)]; falling off the end of the
    function returns [None]. *)
Definition _execute_volume_action (volume : Volume) : M PyVal :=
  let* a := getitem (params self) "action" in
  if py_eq a (VStr "extend") then
    let* new_size := getitem (params self) "new_size" in
    call (CallExtendVolume volume new_size)
         (extend_volume conn volume new_size)
  else
  let* a := getitem (params self) "action" in
  if py_eq a (VStr "reset_status") then
    let* status := getitem (params self) "status" in
    call (CallResetVolumeStatus volume status)
         (reset_volume_status conn volume status)
  else
  let* a := getitem (params self) "action" in
  if py_eq a (VStr "revert") then
    let* snapshot_id := getitem (params self) "snapshot_id" in
    call (CallRevertVolumeToSnapshot volume snapshot_id)
         (revert_volume_to_snapshot conn volume snapshot_id)
  else ret VNone.

(** [run(self)] *)
Definition run : M unit :=
  let* volume := _preliminary_checks in
  let* _ := _execute_volume_action volume in
  exit_json {[ "changed" := VBool true ]}.

(** Modelled from the spec: [OpenStackModule.__call__], the inherited
    entry point that executes [run], is not part of the module's file.
    The spec's contract has a platform error raised by the cloud client
    end the invocation as a failure that carries the error's message;
    other exceptions are not handled. *)
Definition OpenStackModule_call : M unit :=
  try_except run (fun msg => fail_json {[ "msg" := VStr msg ]}).

End Executor.

Arguments CloudClient : clear implicits.
Arguments Event : clear implicits.
Arguments World : clear implicits.

Section Main.

Context {Volume St : Type}.
Variable conn : CloudClient Volume St.

(** [main()]: instantiate the module from the task's arguments (which
    validates them), then call it. *)
Definition main (task_args : PyDict) (check : bool) : M unit :=
  match Framework.AnsibleModule argument_spec required_if
          supports_check_mode task_args check with
  | Framework.Invalid e =>
      fail_json {[ "msg" := VStr (Framework.describe e) ]}
  | Framework.Skipped => exit_json {[ "skipped" := VBool true ]}
  | Framework.Ready self => OpenStackModule_call conn self
  end.

End Main.

(** ** What is observed of an invocation *)

(** The calls a computation adds to the log when started in [w]. *)
Definition issues {Volume St A} (m : M A) (w : World Volume St)
    (new : list (Event Volume)) : Prop :=
  calls (m w).2 = calls w ++ new.

(** The options that the required-if table attaches to an action. *)
Definition companions (action : PyVal) : list string :=
  concat (omap (fun row : string * PyVal * list string =>
                  let '(key, value, options) := row in
                  if bool_decide (key = "action") && py_eq value action
                  then Some options else None)
               required_if).

Definition action_choices : list PyVal :=
  [VStr "extend"; VStr "reset_status"; VStr "revert"].

(** The [choices=] that [argument_spec] declares for an option. *)
Definition declared_choices (name : string) : list PyVal :=
  match dict_of argument_spec !! name with
  | Some a => match choices a with Some cs => cs | None => [] end
  | None => []
  end.

Section Observations.

Context {Volume St : Type}.
Implicit Types (conn : CloudClient Volume St).

(** The volume an operation is applied to, and the value passed with it. *)
Definition event_volume (e : Event Volume) : option Volume :=
  match e with
  | CallGetVolume _ _ => None
  | CallExtendVolume v _ => Some v
  | CallResetVolumeStatus v _ => Some v
  | CallRevertVolumeToSnapshot v _ => Some v
  end.

Definition event_arg (e : Event Volume) : option PyVal :=
  match e with
  | CallGetVolume _ _ => None
  | CallExtendVolume _ a => Some a
  | CallResetVolumeStatus _ a => Some a
  | CallRevertVolumeToSnapshot _ a => Some a
  end.

(** What a logged call does to the platform. *)
Definition replay conn (st : St) (e : Event Volume) : St :=
  match e with
  | CallGetVolume n kw => (get_volume conn n kw st).2
  | CallExtendVolume v a => (extend_volume conn v a st).2
  | CallResetVolumeStatus v a => (reset_volume_status conn v a st).2
  | CallRevertVolumeToSnapshot v a => (revert_volume_to_snapshot conn v a st).2
  end.

(** Two results of an operation that differ at most in the value
    returned. *)
Definition same_but_value (r1 r2 : CallResult PyVal * St) : Prop :=
  r1.2 = r2.2 /\
  match r1.1, r2.1 with
  | Returned _, Returned _ => True
  | Raised e1, Raised e2 => e1 = e2
  | _, _ => False
  end.

(** Two clients that differ at most in what their operations return. *)
Record differ_in_returns conn1 conn2 : Prop := {
  same_lookup : forall n kw st,
    get_volume conn1 n kw st = get_volume conn2 n kw st;
  same_extend : forall v a st,
    same_but_value (extend_volume conn1 v a st) (extend_volume conn2 v a st);
  same_reset : forall v a st,
    same_but_value (reset_volume_status conn1 v a st)
                   (reset_volume_status conn2 v a st);
  same_revert : forall v a st,
    same_but_value (revert_volume_to_snapshot conn1 v a st)
                   (revert_volume_to_snapshot conn2 v a st)
}.

(** Two outcomes that differ at most in the value returned. *)
Definition same_but_ret {A} (o1 o2 : Outcome A * World Volume St) : Prop :=
  o1.2 = o2.2 /\
  match o1.1, o2.1 with
  | Ret _, Ret _ => True
  | ExitJson k1, ExitJson k2 => k1 = k2
  | FailJson k1, FailJson k2 => k1 = k2
  | Raise e1, Raise e2 => e1 = e2
  | _, _ => False
  end.

End Observations.

(** ** A small cloud to run the module on

    One volume, [vol-1] named [data], in the caller's project and one,
    [vol-2] named [backup], in another project, which the lookup only
    sees when it is asked for all projects.  The platform's state counts
    the operations it has applied.  Reverting to a snapshot other than
    [snap-123] is refused by the platform. *)
Module Demo.

Definition own : list string := ["vol-1"; "data"].
Definition foreign : list string := ["vol-2"; "backup"].

Definition find (name_or_id : PyVal) (kwargs : PyDict) : option string :=
  match name_or_id with
  | VStr s =>
      if bool_decide (s ∈ own) then Some "vol-1"
      else if bool_decide (s ∈ foreign)
              && bool_decide (kwargs !! "all_projects" = Some (VBool true))
      then Some "vol-2"
      else None
  | _ => None
  end.

Definition conn : CloudClient string nat :=
  {| get_volume := fun n kw st => (Returned (find n kw), st);
     extend_volume := fun v size st => (Returned (VStr v), S st);
     reset_volume_status := fun v status st => (Returned VNone, S st);
     revert_volume_to_snapshot := fun v snap st =>
       if py_eq snap (VStr "snap-123") then (Returned VNone, S st)
       else (Raised (SDKException "Snapshot not found"), st) |}.

Definition w0 : World string nat := mkWorld 0 [].

Definition extend_task : PyDict :=
  {[ "volume" := VStr "data"; "action" := VStr "extend";
     "new_size" := VBool true ]}.

Definition reset_task : PyDict :=
  {[ "volume" := VStr "data"; "action" := VStr "reset_status";
     "status" := VStr "error" ]}.

Definition revert_task (snap : string) : PyDict :=
  {[ "volume" := VStr "data"; "action" := VStr "revert";
     "snapshot_id" := VStr snap ]}.

(** The same cloud, with operations that return nothing. *)
Definition quiet : CloudClient string nat :=
  {| get_volume := get_volume conn;
     extend_volume := fun v size st => (Returned VNone, S st);
     reset_volume_status := fun v status st => (Returned VNone, S st);
     revert_volume_to_snapshot := fun v snap st =>
       if py_eq snap (VStr "snap-123") then (Returned VNone, S st)
       else (Raised (SDKException "Snapshot not found"), st) |}.

Definition extend_task_no_size : PyDict :=
  {[ "volume" := VStr "data"; "action" := VStr "extend" ]}.

Definition missing_task : PyDict :=
  {[ "volume" := VStr "nope"; "action" := VStr "reset_status";
     "status" := VStr "error" ]}.

Definition cross_project_task : PyDict :=
  {[ "volume" := VStr "backup"; "action" := VStr "reset_status";
     "status" := VStr "error"; "all_projects" := VBool true ]}.

(** A cloud whose lookup is refused. *)
Definition unreachable : CloudClient string nat :=
  {| get_volume := fun n kw st =>
       (Raised (SDKException "Service unavailable"), st);
     extend_volume := extend_volume conn;
     reset_volume_status := reset_volume_status conn;
     revert_volume_to_snapshot := revert_volume_to_snapshot conn |}.

(** A module object whose [action] is none of the three. *)
Definition stray_module : Module :=
  mkModule {[ "volume" := VStr "data"; "action" := VStr "delete" ]} false.

(** A module object for [revert] without its [snapshot_id]. *)
Definition stray_revert : Module :=
  mkModule {[ "volume" := VStr "data"; "action" := VStr "revert" ]} false.

(** [self] for a task, as the framework builds it. *)
Definition module_of (task_args : PyDict) (check : bool) : Module :=
  match Framework.AnsibleModule argument_spec required_if
          supports_check_mode task_args check with
  | Framework.Ready self => self
  | _ => mkModule ∅ check
  end.

End Demo.

(** * Properties *)

Ltac exec :=
  unfold issues, OpenStackModule_call, try_except, run, _preliminary_checks,
    _execute_volume_action, bind, getitem, call, ret, raise, exit_json,
    fail_json.

Section Methods.

Context {Volume St : Type}.
Variable conn : CloudClient Volume St.
Variable self : Module.
Implicit Types (w : World Volume St) (V : Volume) (name arg : PyVal).

(** The lookup, when the client finds the volume. *)
Lemma preliminary_checks_found w name V st1 :
  params self !! "volume" = Some name ->
  get_volume conn name ∅ (cloud w) = (Returned (Some V), st1) ->
  _preliminary_checks conn self w
  = (Ret V, mkWorld st1 (calls w ++ [CallGetVolume name ∅])).
Proof. intros Hv Hg. exec. rewrite Hv, Hg. reflexivity. Qed.

(** The lookup, when the client finds nothing. *)
Lemma preliminary_checks_missing w name st1 :
  params self !! "volume" = Some name ->
  get_volume conn name ∅ (cloud w) = (Returned None, st1) ->
  _preliminary_checks conn self w
  = (FailJson {[ "msg" := VStr ("Could not find volume " +:+ py_str name) ]},
     mkWorld st1 (calls w ++ [CallGetVolume name ∅])).
Proof. intros Hv Hg. exec. rewrite Hv, Hg. reflexivity. Qed.

(** The three branches of the dispatch. *)
Lemma execute_extend w V arg :
  params self !! "action" = Some (VStr "extend") ->
  params self !! "new_size" = Some arg ->
  _execute_volume_action conn self V w
  = call (CallExtendVolume V arg) (extend_volume conn V arg) w.
Proof. intros Ha Hn. exec. rewrite Ha, Hn. reflexivity. Qed.

Lemma execute_reset_status w V arg :
  params self !! "action" = Some (VStr "reset_status") ->
  params self !! "status" = Some arg ->
  _execute_volume_action conn self V w
  = call (CallResetVolumeStatus V arg) (reset_volume_status conn V arg) w.
Proof. intros Ha Hn. exec. rewrite Ha, Hn. reflexivity. Qed.

Lemma execute_revert w V arg :
  params self !! "action" = Some (VStr "revert") ->
  params self !! "snapshot_id" = Some arg ->
  _execute_volume_action conn self V w
  = call (CallRevertVolumeToSnapshot V arg)
         (revert_volume_to_snapshot conn V arg) w.
Proof. intros Ha Hn. exec. rewrite Ha, Hn. reflexivity. Qed.

(** [run] is the lookup, then the dispatch, then the exit. *)
Lemma run_found w V w1 :
  _preliminary_checks conn self w = (Ret V, w1) ->
  run conn self w
  = match _execute_volume_action conn self V w1 with
    | (Ret _, w2) => (ExitJson {[ "changed" := VBool true ]}, w2)
    | (ExitJson kw, w2) => (ExitJson kw, w2)
    | (FailJson kw, w2) => (FailJson kw, w2)
    | (Raise e, w2) => (Raise e, w2)
    end.
Proof.
  intros Hp. unfold run, bind at 1. rewrite Hp.
  unfold bind, exit_json.
  destruct (_execute_volume_action conn self V w1) as [[]]; reflexivity.
Qed.

(** One call to the client logs one event. *)
Lemma call_issues {A} (e : Event Volume) (f : St -> CallResult A * St) w :
  issues (call e f) w [e].
Proof. exec. destruct (f (cloud w)) as [[] ]; reflexivity. Qed.

End Methods.

(** Case analysis over every path of a method: each lookup in
    [self.params], each result of the client. *)
Ltac paths := exec; repeat case_match; simplify_eq/=.

Ltac log_shape :=
  first [ symmetry; apply app_nil_r
        | reflexivity
        | rewrite <- app_assoc; reflexivity ].

Section Invocation.

Context {Volume St : Type}.
Variable conn : CloudClient Volume St.
Implicit Types (self : Module) (w : World Volume St) (V : Volume).
Implicit Types (name arg : PyVal).

(** The dispatch never exits the module itself. *)
Lemma execute_no_exit self V w kw :
  (_execute_volume_action conn self V w).1 <> ExitJson kw.
Proof. paths; discriminate. Qed.

(** The preliminary checks never exit the module themselves. *)
Lemma preliminary_checks_no_exit self w kw :
  (_preliminary_checks conn self w).1 <> ExitJson kw.
Proof. paths; discriminate. Qed.

(** The only exit of [run] reports [changed=True] and nothing else. *)
Lemma run_exit_kw self w kw :
  (run conn self w).1 = ExitJson kw -> kw = {[ "changed" := VBool true ]}.
Proof.
  unfold run, bind, exit_json.
  pose proof (preliminary_checks_no_exit self w) as Hp.
  destruct (_preliminary_checks conn self w) as [[V | k | k | x] w1];
    cbn [fst] in *; try discriminate.
  2: { intros _. exfalso. apply (Hp k). reflexivity. }
  pose proof (execute_no_exit self V w1) as He.
  destruct (_execute_volume_action conn self V w1) as [[r | k | k | x] w2];
    cbn [fst] in *; try discriminate.
  - intros Hexit. injection Hexit as <-. reflexivity.
  - intros _. exfalso. apply (He k). reflexivity.
Qed.

(** The lookup issues no mutating call. *)
Lemma preliminary_checks_issues self w :
  exists new, issues (_preliminary_checks conn self) w new
              /\ mutating_calls new = [].
Proof.
  paths.
  all: first [ exists []; split; [log_shape | reflexivity]
             | eexists [_]; split; [log_shape | reflexivity] ].
Qed.

(** The dispatch issues at most one call, and exactly one when it
    returns for an action among the choices. *)
Lemma execute_issues self V w :
  exists new, issues (_execute_volume_action conn self V) w new
    /\ length new <= 1
    /\ mutating_calls new = new
    /\ (forall a r, params self !! "action" = Some a ->
                    a ∈ action_choices ->
                    (_execute_volume_action conn self V w).1 = Ret r ->
                    length new = 1).
Proof.
  unfold action_choices. paths.
  all: first
    [ eexists [_]; split; [log_shape |];
      split; [simpl; lia |]; split; [reflexivity |]; reflexivity
    | exists []; split; [log_shape |];
      split; [simpl; lia |]; split; [reflexivity |];
      intros ? ? ? Hin ?; first [ discriminate | exfalso ];
      simplify_eq; unfold py_eq in *; repeat case_bool_decide;
      rewrite !elem_of_cons, elem_of_nil in Hin; intuition congruence ].
Qed.

(** C1. With the volume resolved to [V], one invocation issues the
    lookup and then exactly one operation, chosen by [action]:
    [extend] calls [extend_volume(V, new_size)], [reset_status] calls
    [reset_volume_status(V, status)] and [revert] calls
    [revert_volume_to_snapshot(V, snapshot_id)]; the platform is left in
    the state that this one operation produces. *)
Theorem run_dispatches_one_operation self w name V st1 arg :
  params self !! "volume" = Some name ->
  get_volume conn name ∅ (cloud w) = (Returned (Some V), st1) ->
  (params self !! "action" = Some (VStr "extend") ->
   params self !! "new_size" = Some arg ->
   (run conn self w).2
   = mkWorld (extend_volume conn V arg st1).2
       (calls w ++ [CallGetVolume name ∅; CallExtendVolume V arg]))
  /\ (params self !! "action" = Some (VStr "reset_status") ->
      params self !! "status" = Some arg ->
      (run conn self w).2
      = mkWorld (reset_volume_status conn V arg st1).2
          (calls w ++ [CallGetVolume name ∅; CallResetVolumeStatus V arg]))
  /\ (params self !! "action" = Some (VStr "revert") ->
      params self !! "snapshot_id" = Some arg ->
      (run conn self w).2
      = mkWorld (revert_volume_to_snapshot conn V arg st1).2
          (calls w ++ [CallGetVolume name ∅;
                       CallRevertVolumeToSnapshot V arg])).
Proof.
  intros Hv Hg.
  pose proof (preliminary_checks_found conn self w name V st1 Hv Hg) as Hp.
  repeat split; intros Ha Hc; rewrite (run_found conn self w V _ Hp).
  - rewrite (execute_extend conn self _ V arg Ha Hc). unfold call. simpl.
    destruct (extend_volume conn V arg st1) as [[] ]; simpl;
      rewrite <- app_assoc; reflexivity.
  - rewrite (execute_reset_status conn self _ V arg Ha Hc). unfold call. simpl.
    destruct (reset_volume_status conn V arg st1) as [[] ]; simpl;
      rewrite <- app_assoc; reflexivity.
  - rewrite (execute_revert conn self _ V arg Ha Hc). unfold call. simpl.
    destruct (revert_volume_to_snapshot conn V arg st1) as [[] ]; simpl;
      rewrite <- app_assoc; reflexivity.
Qed.

(** C3. When the lookup finds no volume, the invocation fails through
    [fail_json] with the message [Could not find volume <name>], after
    the lookup alone: no mutating call is issued. *)
Theorem run_volume_not_found self w name st1 :
  params self !! "volume" = Some name ->
  get_volume conn name ∅ (cloud w) = (Returned None, st1) ->
  run conn self w
  = (FailJson {[ "msg" := VStr ("Could not find volume " +:+ py_str name) ]},
     mkWorld st1 (calls w ++ [CallGetVolume name ∅]))
  /\ mutating_calls (calls (run conn self w).2) = mutating_calls (calls w).
Proof.
  intros Hv Hg.
  assert (run conn self w
          = (FailJson {[ "msg" := VStr ("Could not find volume "
                                        +:+ py_str name) ]},
             mkWorld st1 (calls w ++ [CallGetVolume name ∅]))) as Hr.
  { unfold run, bind at 1.
    rewrite (preliminary_checks_missing conn self w name st1 Hv Hg).
    reflexivity. }
  split; [exact Hr |]. rewrite Hr. simpl. unfold mutating_calls.
  rewrite List.filter_app. simpl. apply app_nil_r.
Qed.

(** C6. Whenever the lookup resolves the volume and the dispatched
    operation returns, [run] exits with exactly [changed=True]; and no
    exit of [run] reports anything else, so [changed] is never false. *)
Theorem run_success_changed_true self w :
  (forall V w1 r w2,
      _preliminary_checks conn self w = (Ret V, w1) ->
      _execute_volume_action conn self V w1 = (Ret r, w2) ->
      run conn self w = (ExitJson {[ "changed" := VBool true ]}, w2))
  /\ (forall kw w',
         run conn self w = (ExitJson kw, w') ->
         kw = {[ "changed" := VBool true ]}).
Proof.
  split.
  - intros V w1 r w2 Hp He. rewrite (run_found conn self w V w1 Hp), He.
    reflexivity.
  - intros kw w' Hr. apply (run_exit_kw self w). rewrite Hr. reflexivity.
Qed.

(** C7. One invocation issues at most one mutating call: exactly one
    when [run] exits for an action among the choices, and none when the
    preliminary checks do not hand a volume to the dispatch. *)
Theorem run_at_most_one_mutation self w :
  exists new,
    issues (run conn self) w new
    /\ length (mutating_calls new) <= 1
    /\ (forall kw a,
           (run conn self w).1 = ExitJson kw ->
           params self !! "action" = Some a ->
           a ∈ action_choices ->
           length (mutating_calls new) = 1)
    /\ ((forall V, (_preliminary_checks conn self w).1 <> Ret V) ->
        mutating_calls new = []).
Proof.
  destruct (preliminary_checks_issues self w) as (n1 & Hn1 & Hm1).
  destruct (_preliminary_checks conn self w) as [o w1] eqn:Hp.
  unfold issues in Hn1. rewrite Hp in Hn1. simpl in Hn1.
  destruct o as [V | kw | kw | e].
  2: { exfalso. apply (preliminary_checks_no_exit self w kw).
       rewrite Hp. reflexivity. }
  2-3: exists n1; unfold issues, run, bind; rewrite Hp; simpl;
       rewrite Hm1; split; [exact Hn1 |]; split; [simpl; lia |];
       split; [discriminate | reflexivity].
  destruct (execute_issues self V w1) as (n2 & Hn2 & Hlen & Hm2 & Hone).
  exists (n1 ++ n2).
  assert (mutating_calls (n1 ++ n2) = n2) as Hmut.
  { unfold mutating_calls in *. rewrite List.filter_app, Hm1, Hm2.
    reflexivity. }
  rewrite Hmut. unfold issues in *.
  rewrite (run_found conn self w V w1 Hp).
  destruct (_execute_volume_action conn self V w1) as [o2 w2] eqn:He.
  simpl in Hn2.
  assert (calls w2 = calls w ++ n1 ++ n2) as Hlog.
  { rewrite Hn2, Hn1, <- app_assoc. reflexivity. }
  repeat split.
  - destruct o2; simpl; exact Hlog.
  - exact Hlen.
  - intros kw a Hexit Ha Hin. destruct o2 as [r | kw0 | |]; simpl in *.
    + apply (Hone a r Ha Hin). reflexivity.
    + exfalso. apply (execute_no_exit self V w1 kw0).
      rewrite He. reflexivity.
    + discriminate.
    + discriminate.
  - intros Hno. exfalso. apply (Hno V). reflexivity.
Qed.

End Invocation.

Section Failures.

Context {Volume St : Type}.
Variable conn : CloudClient Volume St.
Implicit Types (self : Module) (w : World Volume St) (V : Volume).

(** An SDK exception out of the dispatch comes from the one operation
    it called. *)
Lemma execute_raise_sdk self V w msg w2 :
  _execute_volume_action conn self V w = (Raise (SDKException msg), w2) ->
  exists e, is_mutating e = true /\ calls w2 = calls w ++ [e].
Proof.
  paths; intros; simplify_eq/=; eexists; (split; [| reflexivity]);
    reflexivity.
Qed.

(** C8. When the dispatched operation raises a platform error, the
    exception leaves [run] as it is, the invocation ends in a failure
    whose message is the error's message, and the operation was called
    once: nothing is retried. *)
Theorem platform_error_is_terminal self w V w1 msg w2 :
  _preliminary_checks conn self w = (Ret V, w1) ->
  _execute_volume_action conn self V w1 = (Raise (SDKException msg), w2) ->
  run conn self w = (Raise (SDKException msg), w2)
  /\ OpenStackModule_call conn self w
     = (FailJson {[ "msg" := VStr msg ]}, w2)
  /\ exists e, is_mutating e = true /\ calls w2 = calls w1 ++ [e].
Proof.
  intros Hp He.
  assert (run conn self w = (Raise (SDKException msg), w2)) as Hr.
  { rewrite (run_found conn self w V w1 Hp), He. reflexivity. }
  split; [exact Hr |]. split.
  - unfold OpenStackModule_call, try_except. rewrite Hr. reflexivity.
  - exact (execute_raise_sdk self V w1 msg w2 He).
Qed.

End Failures.

Section Noninterference.

Context {Volume St : Type}.
Implicit Types (conn : CloudClient Volume St) (w : World Volume St).

(** C9. [run] reads [volume], [action] and the option that the
    required-if table attaches to the action, and nothing else of
    [self]: two invocations that agree on these issue the same calls,
    leave the same platform state and end the same way, whatever the
    options of the other actions hold. *)
Theorem run_ignores_other_companions conn (self1 self2 : Module) w :
  params self1 !! "volume" = params self2 !! "volume" ->
  params self1 !! "action" = params self2 !! "action" ->
  (forall a k, params self1 !! "action" = Some a ->
               k ∈ companions a ->
               params self1 !! k = params self2 !! k) ->
  run conn self1 w = run conn self2 w.
Proof.
  intros Hv Ha Hc.
  assert (forall a k, params self1 !! "action" = Some (VStr a) ->
                      k ∈ companions (VStr a) ->
                      params self2 !! k = params self1 !! k) as Hk.
  { intros a k H1 H2. symmetry. exact (Hc _ _ H1 H2). }
  exec. rewrite <- Hv, <- Ha.
  destruct (params self1 !! "volume") as [name |]; [| reflexivity].
  destruct (get_volume conn name ∅ (cloud w)) as [[[V |] | e] st1];
    try reflexivity.
  destruct (params self1 !! "action") as [a |] eqn:Hact; [| reflexivity].
  unfold py_eq. repeat case_bool_decide; subst; try reflexivity.
  - rewrite (Hk "extend" "new_size" eq_refl); [reflexivity |].
    vm_compute. apply list_elem_of_here.
  - rewrite (Hk "reset_status" "status" eq_refl); [reflexivity |].
    vm_compute. apply list_elem_of_here.
  - rewrite (Hk "revert" "snapshot_id" eq_refl); [reflexivity |].
    vm_compute. apply list_elem_of_here.
Qed.

Lemma same_but_ret_refl {A} (o : Outcome A * World Volume St) :
  same_but_ret o o.
Proof. split; [reflexivity |]. destruct o.1; reflexivity. Qed.

Lemma call_same_but_value (e : Event Volume) f1 f2 w :
  same_but_value (f1 (cloud w)) (f2 (cloud w)) ->
  same_but_ret (call e f1 w) (call e f2 w).
Proof.
  unfold call, same_but_value, same_but_ret.
  destruct (f1 (cloud w)) as [[] ?], (f2 (cloud w)) as [[] ?]; simpl;
    intros [-> H]; try contradiction; subst; split; reflexivity.
Qed.

Lemma preliminary_checks_same conn1 conn2 (self : Module) w :
  differ_in_returns conn1 conn2 ->
  _preliminary_checks conn1 self w = _preliminary_checks conn2 self w.
Proof.
  intros [Hl _ _ _]. exec.
  destruct (params self !! "volume") as [name |]; [| reflexivity].
  simpl. rewrite Hl. reflexivity.
Qed.

Lemma execute_same conn1 conn2 (self : Module) V w :
  differ_in_returns conn1 conn2 ->
  same_but_ret (_execute_volume_action conn1 self V w)
               (_execute_volume_action conn2 self V w).
Proof.
  intros [_ He Hs Hr].
  unfold _execute_volume_action, bind, getitem, ret, raise.
  destruct (params self !! "action") as [a |];
    [| apply same_but_ret_refl].
  destruct (py_eq a (VStr "extend")).
  { destruct (params self !! "new_size");
      [apply call_same_but_value, He | apply same_but_ret_refl]. }
  destruct (py_eq a (VStr "reset_status")).
  { destruct (params self !! "status");
      [apply call_same_but_value, Hs | apply same_but_ret_refl]. }
  destruct (py_eq a (VStr "revert")).
  { destruct (params self !! "snapshot_id");
      [apply call_same_but_value, Hr | apply same_but_ret_refl]. }
  apply same_but_ret_refl.
Qed.

(** C10. What the dispatched operation returns is dropped: clients that
    differ only in the values their operations return give the same
    outcome and the same world, and whenever the invocation exits the
    result is [changed=True] alone. *)
Theorem run_discards_operation_result conn1 conn2 (self : Module) w :
  differ_in_returns conn1 conn2 ->
  run conn1 self w = run conn2 self w
  /\ (forall kw, (run conn1 self w).1 = ExitJson kw ->
                 kw = {[ "changed" := VBool true ]}).
Proof.
  intros Hd. split; [| apply run_exit_kw].
  unfold run, bind at 1 3.
  rewrite (preliminary_checks_same conn1 conn2 self w Hd).
  destruct (_preliminary_checks conn2 self w) as [[V | | |] w1];
    try reflexivity.
  destruct (execute_same conn1 conn2 self V w1 Hd) as [Hw Ho].
  unfold bind, exit_json.
  destruct (_execute_volume_action conn1 self V w1) as [o1 u1],
           (_execute_volume_action conn2 self V w1) as [o2 u2].
  simpl in Hw, Ho. subst u2.
  destruct o1, o2; try contradiction; subst; reflexivity.
Qed.

End Noninterference.

(** ** Validation of the task's arguments *)

Section Validation.

Implicit Types (t : PyDict).

(** The defaults touch [new_size] and [all_projects] only. *)
Lemma set_defaults_other t k :
  k <> "new_size" -> k <> "all_projects" ->
  Framework.set_defaults argument_spec t !! k = t !! k.
Proof.
  intros H1 H2. unfold argument_spec. simpl.
  repeat case_match; rewrite ?lookup_insert_ne by congruence; reflexivity.
Qed.

(** After the defaults, [new_size] is always there. *)
Lemma set_defaults_new_size t :
  Framework.absent (Framework.set_defaults argument_spec t) "new_size"
  = false.
Proof.
  unfold argument_spec, Framework.absent. simpl.
  apply bool_decide_eq_false.
  destruct (Framework.absent t "new_size") eqn:Hn;
    destruct (Framework.absent _ "all_projects");
    rewrite ?lookup_insert_ne by discriminate;
    rewrite ?lookup_insert_eq; try discriminate;
    unfold Framework.absent in Hn; apply bool_decide_eq_false in Hn;
    exact Hn.
Qed.

(** The row of the required-if table for [extend] can never fire: the
    default of [new_size] is in place before the table is consulted. *)
Lemma required_if_extend_vacuous t :
  t !! "action" = Some (VStr "extend") ->
  Framework.check_required_if required_if
    (Framework.set_defaults argument_spec t) = None.
Proof.
  intros Ha.
  pose proof (set_defaults_other t "action") as Hp.
  pose proof (set_defaults_new_size t) as Hn.
  set (p := Framework.set_defaults argument_spec t) in *.
  unfold required_if, Framework.check_required_if.
  rewrite Hp, Ha by discriminate.
  cbn [List.filter]. rewrite Hn. reflexivity.
Qed.

(** The rows for [reset_status] and [revert] do fire. *)
Lemma required_if_sibling_rows t a k :
  (a, k) ∈ [("reset_status", "status"); ("revert", "snapshot_id")] ->
  t !! "action" = Some (VStr a) ->
  t !! k = None ->
  Framework.check_required_if required_if
    (Framework.set_defaults argument_spec t)
  = Some (Framework.RequiredIf "action" (VStr a) [k]).
Proof.
  intros Hin Ha Hk.
  rewrite !elem_of_cons, elem_of_nil in Hin.
  assert (Framework.absent (Framework.set_defaults argument_spec t) k = true)
    as Hn.
  { unfold Framework.absent. apply bool_decide_eq_true.
    rewrite set_defaults_other; [exact Hk | |];
      destruct Hin as [Heq | [Heq | []]]; injection Heq as _ ->;
      discriminate. }
  pose proof (set_defaults_other t "action") as Hp.
  set (p := Framework.set_defaults argument_spec t) in *.
  unfold required_if, Framework.check_required_if.
  rewrite Hp, Ha by discriminate.
  destruct Hin as [Heq | [Heq | []]]; injection Heq as -> ->;
    cbn [List.filter]; rewrite Hn; reflexivity.
Qed.

Lemma validate_sibling_rows t a k :
  (a, k) ∈ [("reset_status", "status"); ("revert", "snapshot_id")] ->
  t !! "action" = Some (VStr a) ->
  t !! k = None ->
  exists e, Framework.validate argument_spec required_if t = inl e.
Proof.
  intros Hin Ha Hk. unfold Framework.validate.
  rewrite (required_if_sibling_rows t a k Hin Ha Hk).
  repeat case_match; eexists; reflexivity.
Qed.

Context {Volume St : Type}.
Variable conn : CloudClient Volume St.

(** A [reset_status] or [revert] task without its companion option
    fails in the validation, before any call to the client. *)
Lemma main_sibling_rows t a k check (w : World Volume St) :
  (a, k) ∈ [("reset_status", "status"); ("revert", "snapshot_id")] ->
  t !! "action" = Some (VStr a) ->
  t !! k = None ->
  exists kw, main conn t check w = (FailJson kw, w).
Proof.
  intros Hin Ha Hk.
  destruct (validate_sibling_rows t a k Hin Ha Hk) as [e He].
  unfold main, Framework.AnsibleModule. rewrite He.
  eexists. reflexivity.
Qed.

(** [run] never looks at the check-mode flag. *)
Lemma run_ignores_check_mode (p : PyDict) (w : World Volume St) :
  run conn (mkModule p true) w = run conn (mkModule p false) w.
Proof. reflexivity. Qed.

(** [run] never looks at [all_projects]. *)
Lemma run_ignores_all_projects (p : PyDict) v check (w : World Volume St) :
  run conn (mkModule (<["all_projects" := v]> p) check) w
  = run conn (mkModule p check) w.
Proof.
  exec. simpl. rewrite !lookup_insert_ne by discriminate. reflexivity.
Qed.

(** Whatever the module does, the lookup it issues carries no keyword
    argument. *)
Lemma lookup_without_keywords (self : Module) (w : World Volume St) e :
  e ∈ calls (_preliminary_checks conn self w).2 ->
  e ∈ calls w \/ exists name, e = CallGetVolume name ∅.
Proof.
  paths; rewrite ?elem_of_app, ?list_elem_of_singleton;
    first [ intros [? | ->]; [left; assumption | right; eexists; reflexivity]
          | intros ?; left; assumption ].
Qed.

End Validation.

(** ** The module on the small cloud *)

Section Runs.

Import Demo.

(** C2. An [extend] task without [new_size] is not rejected: the default
    [False] is in place before the required-if table is consulted, the
    validation passes, and the module goes on to look the volume up and
    to call [extend_volume(V, False)]. *)
Theorem extend_without_new_size_reaches_cloud :
  extend_task_no_size !! "new_size" = None
  /\ main conn extend_task_no_size false w0
     = (ExitJson {[ "changed" := VBool true ]},
        mkWorld 1 [CallGetVolume (VStr "data") ∅;
                   CallExtendVolume "vol-1" (VBool false)]).
Proof. split; reflexivity. Qed.

(** C4. In check mode the module runs as it does otherwise: the
    operation is called and the platform's state changes. *)
Theorem check_mode_still_mutates :
  check_mode (module_of extend_task true) = true
  /\ main conn extend_task true w0
     = (ExitJson {[ "changed" := VBool true ]},
        mkWorld 1 [CallGetVolume (VStr "data") ∅;
                   CallExtendVolume "vol-1" (VBool true)]).
Proof. split; reflexivity. Qed.

(** C5. With [all_projects=True] the lookup is issued without that
    flag: a volume of another project, which the client finds when
    asked for all projects, is reported as not found. *)
Theorem all_projects_not_passed_to_lookup :
  find (VStr "backup") {[ "all_projects" := VBool true ]} = Some "vol-2"
  /\ params (module_of cross_project_task false) !! "all_projects"
     = Some (VBool true)
  /\ main conn cross_project_task false w0
     = (FailJson {[ "msg" := VStr "Could not find volume backup" ]},
        mkWorld 0 [CallGetVolume (VStr "backup") ∅]).
Proof. repeat split; reflexivity. Qed.

Lemma quiet_differs_in_returns : differ_in_returns conn quiet.
Proof.
  split; intros; unfold same_but_value; simpl; try (split; reflexivity).
  destruct (py_eq a (VStr "snap-123")); split; reflexivity.
Qed.

Lemma run_dispatches_one_operation_witness :
  (run conn (module_of extend_task false) w0).2
  = mkWorld 1 [CallGetVolume (VStr "data") ∅;
               CallExtendVolume "vol-1" (VBool true)].
Proof.
  apply (run_dispatches_one_operation conn (module_of extend_task false)
           w0 (VStr "data") "vol-1" 0 (VBool true));
    reflexivity.
Defined.

Lemma run_volume_not_found_witness :
  run conn (module_of missing_task false) w0
  = (FailJson {[ "msg" := VStr "Could not find volume nope" ]},
     mkWorld 0 [CallGetVolume (VStr "nope") ∅]).
Proof.
  apply (run_volume_not_found conn (module_of missing_task false) w0
           (VStr "nope") 0); reflexivity.
Defined.

Lemma run_success_changed_true_witness :
  run conn (module_of reset_task false) w0
  = (ExitJson {[ "changed" := VBool true ]},
     mkWorld 1 [CallGetVolume (VStr "data") ∅;
                CallResetVolumeStatus "vol-1" (VStr "error")]).
Proof.
  apply (proj1 (run_success_changed_true conn (module_of reset_task false)
                  w0)
           "vol-1" (mkWorld 0 [CallGetVolume (VStr "data") ∅]) VNone);
    reflexivity.
Defined.

Lemma run_at_most_one_mutation_witness :
  exists new,
    issues (run conn (module_of reset_task false)) w0 new
    /\ length (mutating_calls new) = 1.
Proof.
  destruct (run_at_most_one_mutation conn (module_of reset_task false) w0)
    as (new & Hnew & _ & Hone & _).
  exists new. split; [exact Hnew |].
  apply (Hone {[ "changed" := VBool true ]} (VStr "reset_status"));
    [reflexivity | reflexivity |].
  unfold action_choices. apply list_elem_of_further, list_elem_of_here.
Defined.

Lemma platform_error_is_terminal_witness :
  OpenStackModule_call conn (module_of (revert_task "snap-9") false) w0
  = (FailJson {[ "msg" := VStr "Snapshot not found" ]},
     mkWorld 0 [CallGetVolume (VStr "data") ∅;
                CallRevertVolumeToSnapshot "vol-1" (VStr "snap-9")]).
Proof.
  apply (platform_error_is_terminal conn
           (module_of (revert_task "snap-9") false) w0 "vol-1"
           (mkWorld 0 [CallGetVolume (VStr "data") ∅]));
    reflexivity.
Defined.

Lemma run_ignores_other_companions_witness :
  run conn (module_of (<["status" := VStr "error"]> extend_task) false) w0
  = run conn
      (module_of (<["snapshot_id" := VStr "snap-123"]> extend_task) true) w0.
Proof.
  apply run_ignores_other_companions; [reflexivity | reflexivity |].
  intros a k Ha Hk. vm_compute in Ha. injection Ha as <-.
  vm_compute in Hk. apply list_elem_of_singleton in Hk. subst k.
  reflexivity.
Defined.

Lemma run_discards_operation_result_witness :
  run conn (module_of extend_task false) w0
  = run quiet (module_of extend_task false) w0.
Proof.
  apply (run_discards_operation_result conn quiet).
  exact quiet_differs_in_returns.
Defined.

End Runs.

(** * Further properties of the methods *)

Section Paths.

Context {Volume St : Type}.
Variable conn : CloudClient Volume St.
Implicit Types (self : Module) (w : World Volume St) (V : Volume).
Implicit Types (name arg a : PyVal).

(** The dispatch never fails the module itself. *)
Lemma execute_no_fail self V w kw :
  (_execute_volume_action conn self V w).1 <> FailJson kw.
Proof. paths; discriminate. Qed.

(** Once the lookup has returned a volume, the world [run] leaves is the
    one the dispatch leaves. *)
Lemma run_found_world self w V w1 :
  _preliminary_checks conn self w = (Ret V, w1) ->
  (run conn self w).2 = (_execute_volume_action conn self V w1).2.
Proof.
  intros Hp. rewrite (run_found conn self w V w1 Hp).
  destruct (_execute_volume_action conn self V w1) as [[] ?]; reflexivity.
Qed.

(** The dispatch either leaves the world alone or calls one operation on
    its volume. *)
Lemma execute_log self V w :
  (_execute_volume_action conn self V w).2 = w
  \/ exists e,
       event_volume e = Some V
       /\ (_execute_volume_action conn self V w).2
          = mkWorld (replay conn (cloud w) e) (calls w ++ [e]).
Proof.
  paths.
  all: first
    [ left; reflexivity
    | match goal with
      | H : _ = (_, _) |- context [calls _ ++ [?e]] =>
          right; exists e; split; [reflexivity |];
          cbn [replay]; rewrite H; reflexivity
      end ].
Qed.

(** X1. The calls of one invocation, in order: nothing at all when
    [self.params] has no [volume]; otherwise the lookup of that volume,
    first, once and without keyword arguments, followed by at most one
    operation, which is applied to the very volume the lookup returned. *)
Theorem run_log_shape self w :
  (params self !! "volume" = None /\ (run conn self w).2 = w)
  \/ exists name,
       params self !! "volume" = Some name
       /\ (issues (run conn self) w [CallGetVolume name ∅]
           \/ exists V st1 e,
                get_volume conn name ∅ (cloud w) = (Returned (Some V), st1)
                /\ event_volume e = Some V
                /\ issues (run conn self) w [CallGetVolume name ∅; e]).
Proof.
  destruct (params self !! "volume") as [name |] eqn:Hv.
  2: { left. split; [reflexivity |]. exec. rewrite Hv. reflexivity. }
  right. exists name. split; [reflexivity |].
  destruct (get_volume conn name ∅ (cloud w)) as [[[V |] | x] st1] eqn:Hg.
  - pose proof (preliminary_checks_found conn self w name V st1 Hv Hg) as Hp.
    unfold issues. rewrite (run_found_world self w V _ Hp).
    destruct (execute_log self V
                (mkWorld st1 (calls w ++ [CallGetVolume name ∅])))
      as [-> | (e & Hev & ->)].
    + left. reflexivity.
    + right. exists V, st1, e. split; [reflexivity |]. split; [exact Hev |].
      cbn [calls snd]. rewrite <- app_assoc. reflexivity.
  - left. exec. rewrite Hv, Hg. reflexivity.
  - left. exec. rewrite Hv, Hg. reflexivity.
Qed.


(** X3. An exception raised by the lookup leaves [run] unchanged, after
    the lookup alone: no [fail_json] of the module's own and no
    operation. *)
Theorem run_lookup_raises self w name x st1 :
  params self !! "volume" = Some name ->
  get_volume conn name ∅ (cloud w) = (Raised x, st1) ->
  run conn self w
  = (Raise x, mkWorld st1 (calls w ++ [CallGetVolume name ∅])).
Proof. intros Hv Hg. exec. rewrite Hv, Hg. reflexivity. Qed.

(** X4. When [self.params] holds an [action] that is none of the three,
    the dispatch falls through: no operation is called, and [run] still
    exits with [changed=True]. *)
Theorem run_unknown_action_reports_change self w name V st1 a :
  params self !! "volume" = Some name ->
  get_volume conn name ∅ (cloud w) = (Returned (Some V), st1) ->
  params self !! "action" = Some a ->
  a ∉ action_choices ->
  run conn self w
  = (ExitJson {[ "changed" := VBool true ]},
     mkWorld st1 (calls w ++ [CallGetVolume name ∅])).
Proof.
  intros Hv Hg Ha Hn.
  rewrite (run_found conn self w V _
             (preliminary_checks_found conn self w name V st1 Hv Hg)).
  unfold action_choices in Hn. rewrite !not_elem_of_cons in Hn.
  destruct Hn as (H1 & H2 & H3 & _).
  unfold _execute_volume_action, bind, getitem, ret. rewrite Ha.
  unfold py_eq. rewrite !bool_decide_eq_false_2 by assumption.
  reflexivity.
Qed.

(** X5. The only failure [run] reports itself is the volume that was not
    found: a [fail_json] out of [run] means that the lookup returned
    nothing, carries that message and follows the lookup alone. *)
Theorem run_failure_means_not_found self w kw :
  (run conn self w).1 = FailJson kw ->
  exists name st1,
    params self !! "volume" = Some name
    /\ get_volume conn name ∅ (cloud w) = (Returned None, st1)
    /\ kw = {[ "msg" := VStr ("Could not find volume " +:+ py_str name) ]}
    /\ (run conn self w).2 = mkWorld st1 (calls w ++ [CallGetVolume name ∅]).
Proof.
  destruct (params self !! "volume") as [name |] eqn:Hv.
  2: { exec. rewrite Hv. discriminate. }
  destruct (get_volume conn name ∅ (cloud w)) as [[[V |] | x] st1] eqn:Hg.
  - rewrite (run_found conn self w V _
               (preliminary_checks_found conn self w name V st1 Hv Hg)).
    pose proof (execute_no_fail self V
                  (mkWorld st1 (calls w ++ [CallGetVolume name ∅]))) as Hnf.
    destruct (_execute_volume_action conn self V _) as [[r | k | k | x] w2];
      cbn [fst] in *; try discriminate.
    intros _. exfalso. apply (Hnf k). reflexivity.
  - intros Hf. exists name, st1.
    assert (run conn self w
            = (FailJson {[ "msg" := VStr ("Could not find volume "
                                          +:+ py_str name) ]},
               mkWorld st1 (calls w ++ [CallGetVolume name ∅]))) as Hr.
    { unfold run, bind at 1.
      rewrite (preliminary_checks_missing conn self w name st1 Hv Hg).
      reflexivity. }
    rewrite Hr in Hf |- *. simpl in Hf. injection Hf as <-.
    repeat split; first [assumption | reflexivity].
  - exec. rewrite Hv, Hg. discriminate.
Qed.

(** X6. [run] exits, that is reports a change, only after the lookup has
    found a volume and the dispatch has returned for it. *)
Theorem run_exit_means_found self w kw :
  (run conn self w).1 = ExitJson kw ->
  exists name V st1 r w2,
    params self !! "volume" = Some name
    /\ get_volume conn name ∅ (cloud w) = (Returned (Some V), st1)
    /\ _execute_volume_action conn self V
         (mkWorld st1 (calls w ++ [CallGetVolume name ∅])) = (Ret r, w2)
    /\ (run conn self w).2 = w2.
Proof.
  destruct (params self !! "volume") as [name |] eqn:Hv.
  2: { exec. rewrite Hv. discriminate. }
  destruct (get_volume conn name ∅ (cloud w)) as [[[V |] | x] st1] eqn:Hg.
  - rewrite (run_found conn self w V _
               (preliminary_checks_found conn self w name V st1 Hv Hg)).
    destruct (_execute_volume_action conn self V _) as [[r | k | k | x] w2]
      eqn:He; simpl; try discriminate.
    + intros _. exists name, V, st1, r, w2.
      repeat split; first [assumption | reflexivity].
    + exfalso.
      pose proof (execute_no_exit conn self V
                    (mkWorld st1 (calls w ++ [CallGetVolume name ∅])) k)
        as Hne.
      rewrite He in Hne. apply Hne. reflexivity.
  - exec. rewrite Hv, Hg. discriminate.
  - exec. rewrite Hv, Hg. discriminate.
Qed.

(** X7. Missing keys of [self.params]: without [volume], [run] raises
    [KeyError] before any call to the client; with the volume found but
    without [action], it raises [KeyError] after the lookup alone. *)
Theorem run_missing_keys self w :
  (params self !! "volume" = None ->
   run conn self w = (Raise (KeyError "volume"), w))
  /\ (forall name V st1,
         params self !! "volume" = Some name ->
         get_volume conn name ∅ (cloud w) = (Returned (Some V), st1) ->
         params self !! "action" = None ->
         run conn self w
         = (Raise (KeyError "action"),
            mkWorld st1 (calls w ++ [CallGetVolume name ∅]))).
Proof.
  split.
  - intros Hv. exec. rewrite Hv. reflexivity.
  - intros name V st1 Hv Hg Ha.
    rewrite (run_found conn self w V _
               (preliminary_checks_found conn self w name V st1 Hv Hg)).
    exec. rewrite Ha. reflexivity.
Qed.

(** X8. The dispatch and the required-if table agree: for each of the
    three actions the table names exactly one option, and that option is
    the one the dispatch reads.  Without it in [self.params] the dispatch
    raises [KeyError] for it and calls nothing; with it, the dispatch
    calls one operation on the given volume and passes the option's
    value. *)
Theorem dispatch_reads_required_companion self w V a :
  a ∈ action_choices ->
  params self !! "action" = Some a ->
  exists k,
    companions a = [k]
    /\ (params self !! k = None ->
        _execute_volume_action conn self V w = (Raise (KeyError k), w))
    /\ (forall arg,
           params self !! k = Some arg ->
           exists e,
             issues (_execute_volume_action conn self V) w [e]
             /\ event_volume e = Some V
             /\ event_arg e = Some arg).
Proof.
  intros Hin Ha. unfold action_choices in Hin.
  rewrite !elem_of_cons, elem_of_nil in Hin.
  destruct Hin as [-> | [-> | [-> | []]]].
  - exists "new_size". split; [reflexivity |]. split.
    + intros Hk. exec. rewrite Ha, Hk. reflexivity.
    + intros arg Hk. eexists. unfold issues.
      rewrite (execute_extend conn self w V arg Ha Hk).
      split; [apply call_issues |]. split; reflexivity.
  - exists "status". split; [reflexivity |]. split.
    + intros Hk. exec. rewrite Ha, Hk. reflexivity.
    + intros arg Hk. eexists. unfold issues.
      rewrite (execute_reset_status conn self w V arg Ha Hk).
      split; [apply call_issues |]. split; reflexivity.
  - exists "snapshot_id". split; [reflexivity |]. split.
    + intros Hk. exec. rewrite Ha, Hk. reflexivity.
    + intros arg Hk. eexists. unfold issues.
      rewrite (execute_revert conn self w V arg Ha Hk).
      split; [apply call_issues |]. split; reflexivity.
Qed.

(** X9. [all_projects] and the check-mode flag are dead inputs of [run]:
    two module objects whose parameters agree on every key but
    [all_projects] run identically, whatever their check-mode flags. *)
Theorem run_ignores_scope_and_check_mode (p1 p2 : PyDict) (c1 c2 : bool) w :
  (forall k, k <> "all_projects" -> p1 !! k = p2 !! k) ->
  run conn (mkModule p1 c1) w = run conn (mkModule p2 c2) w.
Proof.
  intros Hk. exec. simpl.
  rewrite !(Hk "volume"), !(Hk "action"), !(Hk "new_size"), !(Hk "status"),
    !(Hk "snapshot_id") by discriminate.
  reflexivity.
Qed.

End Paths.

(** * The tables *)

Section Tables.

(** A dict literal without repeated keys holds exactly its entries. *)
Lemma dict_of_lookup {A} (literal : list (string * A)) k v :
  NoDup literal.*1 ->
  dict_of literal !! k = Some v <-> (k, v) ∈ literal.
Proof.
  intros Hnd. unfold dict_of.
  assert (forall (l : list (string * A)) (d : gmap string A),
             fold_left (fun d kv => <[kv.1 := kv.2]> d) l d
             = foldr (fun kv d => <[kv.1 := kv.2]> d) d (reverse l)) as Hfold.
  { induction l as [| x l IH]; intros d; [reflexivity |].
    rewrite reverse_cons, foldr_app. simpl. apply IH. }
  rewrite Hfold.
  change (foldr (fun kv d => <[kv.1 := kv.2]> d) ∅ (reverse literal))
    with (list_to_map (M := gmap string A) (reverse literal)).
  rewrite <- elem_of_list_to_map.
  - rewrite elem_of_reverse. reflexivity.
  - rewrite fmap_reverse, reverse_Permutation. exact Hnd.
Qed.

(** What the required-if table attaches to a value of [action]. *)
Lemma companions_cases (a : PyVal) :
  (a = VStr "extend" /\ companions a = ["new_size"])
  \/ (a = VStr "reset_status" /\ companions a = ["status"])
  \/ (a = VStr "revert" /\ companions a = ["snapshot_id"])
  \/ ((a ∉ action_choices) /\ companions a = []).
Proof.
  unfold companions, required_if, action_choices, py_eq. simpl.
  destruct (decide (VStr "extend" = a)) as [<- | H1];
    [left; split; reflexivity |].
  destruct (decide (VStr "reset_status" = a)) as [<- | H2];
    [right; left; split; reflexivity |].
  destruct (decide (VStr "revert" = a)) as [<- | H3];
    [right; right; left; split; reflexivity |].
  right; right; right.
  rewrite !bool_decide_eq_false_2 by assumption. split; [| reflexivity].
  rewrite !not_elem_of_cons. repeat split; try congruence.
  apply not_elem_of_nil.
Qed.

(** X10. The class's two tables fit together: the values of [action] for
    which the required-if table asks for something are exactly the
    choices that [argument_spec] declares for [action]; each of them gets
    exactly one option, and that option is declared in [argument_spec],
    as an optional one without choices of its own. *)
Theorem required_if_covers_choices :
  (forall a, a ∈ declared_choices "action" <-> companions a <> [])
  /\ (forall a k,
         k ∈ companions a ->
         companions a = [k]
         /\ exists s, dict_of argument_spec !! k = Some s
                      /\ required s = false /\ choices s = None).
Proof.
  change (declared_choices "action") with action_choices.
  split.
  - intros a.
    destruct (companions_cases a) as [[-> ->] | [[-> ->] | [[-> ->] | [Hn ->]]]].
    4: { split; [intros Hin; contradiction | intros Hne; contradiction]. }
    all: split; [discriminate | intros _; unfold action_choices].
    + apply list_elem_of_here.
    + apply list_elem_of_further, list_elem_of_here.
    + do 2 apply list_elem_of_further. apply list_elem_of_here.
  - intros a k.
    destruct (companions_cases a) as [[-> ->] | [[-> ->] | [[-> ->] | [Hn ->]]]].
    4: { intros Hin. apply elem_of_nil in Hin. contradiction. }
    all: intros Hin; apply list_elem_of_singleton in Hin; subst k;
      (split; [reflexivity |]); eexists; (split; [reflexivity |]);
      split; reflexivity.
Qed.

(** X11. The module-level tables: the literal [_action_map] repeats no
    key, so the dictionary holds exactly its fifteen entries; every entry
    lists at least one state; every action of [_admin_actions] has an
    entry; and none of the actions the class accepts has one. *)
Theorem action_map_entries :
  (forall k v, dict_of _action_map !! k = Some v <-> (k, v) ∈ _action_map)
  /\ (forall k v, dict_of _action_map !! k = Some v -> v <> [])
  /\ (forall k, k ∈ _admin_actions -> is_Some (dict_of _action_map !! k))
  /\ (forall a, VStr a ∈ declared_choices "action" ->
                dict_of _action_map !! a = None).
Proof.
  assert (NoDup _action_map.*1) as Hnd.
  { unfold _action_map. cbn [fmap list_fmap fst].
    repeat (apply NoDup_cons_2;
            [ rewrite ?not_elem_of_cons; repeat split;
              first [ discriminate | apply not_elem_of_nil ] |]).
    apply NoDup_nil_2. }
  assert (forall k v, dict_of _action_map !! k = Some v
                      <-> (k, v) ∈ _action_map) as Hd.
  { intros k v. apply dict_of_lookup. exact Hnd. }
  split; [exact Hd |]. split; [| split].
  - intros k v Hk. apply Hd in Hk. unfold _action_map in Hk.
    rewrite !elem_of_cons, elem_of_nil in Hk.
    repeat (destruct Hk as [Hk | Hk]; [injection Hk as -> ->; discriminate |]).
    contradiction.
  - intros k Hk. unfold _admin_actions in Hk.
    rewrite !elem_of_cons, elem_of_nil in Hk.
    repeat (destruct Hk as [-> | Hk]; [eexists; vm_compute; reflexivity |]).
    contradiction.
  - intros a Ha. change (declared_choices "action") with action_choices in Ha.
    unfold action_choices in Ha. rewrite !elem_of_cons, elem_of_nil in Ha.
    repeat (destruct Ha as [Ha | Ha]; [injection Ha as ->; reflexivity |]).
    contradiction.
Qed.

End Tables.

(** ** These properties on the small cloud *)

Section MoreRuns.

Import Demo.

Lemma run_lookup_raises_witness :
  run unreachable (module_of extend_task false) w0
  = (Raise (SDKException "Service unavailable"),
     mkWorld 0 [CallGetVolume (VStr "data") ∅]).
Proof.
  apply (run_lookup_raises unreachable (module_of extend_task false) w0
           (VStr "data") (SDKException "Service unavailable") 0);
    reflexivity.
Defined.

Lemma run_unknown_action_reports_change_witness :
  run conn stray_module w0
  = (ExitJson {[ "changed" := VBool true ]},
     mkWorld 0 [CallGetVolume (VStr "data") ∅]).
Proof.
  apply (run_unknown_action_reports_change conn stray_module w0
           (VStr "data") "vol-1" 0 (VStr "delete"));
    [reflexivity | reflexivity | reflexivity |].
  unfold action_choices. rewrite !not_elem_of_cons.
  repeat split; first [discriminate | apply not_elem_of_nil].
Defined.

Lemma run_failure_means_not_found_witness :
  exists name st1,
    params (module_of missing_task false) !! "volume" = Some name
    /\ get_volume conn name ∅ (cloud w0) = (Returned None, st1)
    /\ ({[ "msg" := VStr "Could not find volume nope" ]} : PyDict)
       = {[ "msg" := VStr ("Could not find volume " +:+ py_str name) ]}
    /\ (run conn (module_of missing_task false) w0).2
       = mkWorld st1 (calls w0 ++ [CallGetVolume name ∅]).
Proof.
  apply (run_failure_means_not_found conn (module_of missing_task false) w0).
  reflexivity.
Defined.

Lemma run_exit_means_found_witness :
  exists name V st1 r w2,
    params (module_of reset_task false) !! "volume" = Some name
    /\ get_volume conn name ∅ (cloud w0) = (Returned (Some V), st1)
    /\ _execute_volume_action conn (module_of reset_task false) V
         (mkWorld st1 (calls w0 ++ [CallGetVolume name ∅])) = (Ret r, w2)
    /\ (run conn (module_of reset_task false) w0).2 = w2.
Proof.
  apply (run_exit_means_found conn (module_of reset_task false) w0
           {[ "changed" := VBool true ]}).
  reflexivity.
Defined.

Lemma run_missing_keys_witness :
  run conn (mkModule ∅ false) w0 = (Raise (KeyError "volume"), w0).
Proof.
  apply (proj1 (run_missing_keys conn (mkModule ∅ false) w0)).
  reflexivity.
Defined.

Lemma dispatch_reads_required_companion_witness :
  exists k,
    companions (VStr "revert") = [k]
    /\ (params stray_revert !! k = None ->
        _execute_volume_action conn stray_revert "vol-1" w0
        = (Raise (KeyError k), w0))
    /\ (forall arg,
           params stray_revert !! k = Some arg ->
           exists e,
             issues (_execute_volume_action conn stray_revert "vol-1") w0 [e]
             /\ event_volume e = Some "vol-1"
             /\ event_arg e = Some arg).
Proof.
  apply (dispatch_reads_required_companion conn stray_revert w0 "vol-1"
           (VStr "revert")); [| reflexivity].
  unfold action_choices. do 2 apply list_elem_of_further.
  apply list_elem_of_here.
Defined.

Lemma run_ignores_scope_and_check_mode_witness :
  run conn (mkModule (<["all_projects" := VBool true]> extend_task) true) w0
  = run conn (mkModule extend_task false) w0.
Proof.
  apply run_ignores_scope_and_check_mode.
  intros k Hk. apply lookup_insert_ne. congruence.
Defined.

End MoreRuns.
